(** * The Terrain automation notebook

    A shallow embedding of [terrain-automation.ipynb]: the code cells of the
    notebook, run from top to bottom, as one program in a small monad that
    threads the terminal, the log of calls to [requests.get] and the first
    exception raised.

    What lies outside the notebook is a parameter of the run:
    - the lines typed at the prompts, the behaviour of [requests.get] (the
      network and the Terrain server) and the values [pprint.pprint] gets
      through within the interpreter's recursion limit form a [World];
    - Python's [repr], which [str.format] falls back on for a value that is
      not a string, is a variable of the section that holds the program. *)

From stdpp Require Import base option list strings gmap.

Set Warnings "-register-all".

(** ** Values *)

(** What [Response.json()] returns: the Python value of a JSON document.
    A dict is kept as its items in insertion order, which is what printing
    it depends on. A float is kept as the text of its number literal. A
    string is a sequence of characters, one [ascii] each. *)
Inductive json : Type :=
| JNull
| JBool (b : bool)
| JInt (n : Z)
| JFloat (literal : string)
| JStr (s : string)
| JList (elems : list json)
| JDict (items : list (string * json)).

(** [d[k]] on the items of a dict. The keys of a dict are distinct; on a
    sequence of items that repeats a key the last one is returned, the one a
    dict built from that sequence keeps. *)
Fixpoint dict_get (k : string) (items : list (string * json)) : option json :=
  match items with
  | [] => None
  | (k', v) :: rest =>
      match dict_get k rest with
      | Some v' => Some v'
      | None => if String.eqb k k' then Some v else None
      end
  end.

(** A subscript: the notebook uses string keys and the index [0]. *)
Inductive key : Type :=
| KStr (s : string)
| KInt (i : Z).

(** ** HTTP *)

Inductive Body : Type :=
| Json (v : json)          (* the body parses as JSON, to [v] *)
| NotJson (raw : string).  (* anything else, the empty body included *)

Record Response : Type := mkResponse {
  status_code : Z;
  content : Body
}.

Inductive Method : Type := GET.

(** The arguments of one call to [requests.get]. *)
Record Request : Type := mkRequest {
  method : Method;
  url : string;
  auth : option (string * string);        (* auth=(user, password): HTTP Basic *)
  headers : option (gmap string string);  (* headers=... *)
  params : option (gmap string string)    (* params=...: the query string *)
}.

(** [requests.get] either returns a response or raises a
    [RequestException] of its own (no connection, a timeout, a URL or a
    header it refuses to send). *)
Inductive Outcome : Type :=
| Replied (r : Response)
| Failed.

(** ** Exceptions *)

Inductive exn : Type :=
| EOFError                  (* input() / getpass() at end of input *)
| RequestException          (* raised by requests.get itself *)
| HTTPError (r : Response)  (* raised by Response.raise_for_status *)
| JSONDecodeError           (* raised by Response.json *)
| KeyError (k : key)
| IndexError
| TypeError
| RecursionError.           (* raised by pprint.pprint on deep nesting *)

Definition result (A : Type) : Type := exn + A.

Abbreviation ok := inr (only parsing).
Abbreviation raise := inl (only parsing).

(** ** The library calls the notebook makes *)

(** [Response.raise_for_status()] of the requests library: an [HTTPError]
    for a client error, [400 <= status_code < 500], and for a server error,
    [500 <= status_code < 600]; it returns for every other status. *)
Definition raise_for_status (r : Response) : result unit :=
  if ((400 <=? status_code r) && (status_code r <? 500))%Z then raise (HTTPError r)
  else if ((500 <=? status_code r) && (status_code r <? 600))%Z then raise (HTTPError r)
  else ok tt.

(** [Response.json()]. *)
Definition json_of (r : Response) : result json :=
  match content r with
  | Json v => ok v
  | NotJson _ => raise JSONDecodeError
  end.

(** [xs[i]] on a Python sequence: a negative index counts from the end. *)
Definition seq_index {A : Type} (xs : list A) (i : Z) : option A :=
  let n := Z.of_nat (length xs) in
  let j := if (i <? 0)%Z then (i + n)%Z else i in
  if ((0 <=? j) && (j <? n))%Z then xs !! Z.to_nat j else None.

(** [v[k]]: a dict is looked up by key (its keys are strings, so an integer
    is never among them), a list or a string is indexed by an integer, and
    nothing else can be subscripted. *)
Definition getitem (v : json) (k : key) : result json :=
  match v, k with
  | JDict items, KStr s =>
      match dict_get s items with
      | Some x => ok x
      | None => raise (KeyError k)
      end
  | JDict _, KInt _ => raise (KeyError k)
  | JList xs, KInt i =>
      match seq_index xs i with
      | Some x => ok x
      | None => raise IndexError
      end
  | JStr s, KInt i =>
      match seq_index (String.list_ascii_of_string s) i with
      | Some c => ok (JStr (String c EmptyString))
      | None => raise IndexError
      end
  | _, _ => raise TypeError
  end.

(** ["literal" + v]: only a string can be added to a string. *)
Definition str_add (s : string) (v : json) : result string :=
  match v with
  | JStr t => ok (s +:+ t)
  | _ => raise TypeError
  end.

(** A format string, read off the literal in the source: the text between
    the replacement fields and the fields [{0}], [{1}], ... *)
Inductive piece : Type :=
| Lit (s : string)
| Field (i : nat).

(** ** Terminal and log *)

Inductive Event : Type :=
| Print (args : list json) (end_ : string)                 (* print(args..., end=end_) *)
| Read (echo : bool) (prompt : string) (line : option string) (* input(), getpass() *)
| Get (q : Request) (o : Outcome)                          (* requests.get(...) *)
| PPrint (v : json)                                        (* pprint.pprint(v) *)
| PPrintRaised (v : json).          (* pprint.pprint(v), which raised part way *)

Record World : Type := mkWorld {
  keyboard : list string;
  (* the outcome of a call, given the calls made before it, oldest first *)
  transport : list Request -> Request -> Outcome;
  (* whether pprint.pprint gets through a value; it raises RecursionError on
     one nested deeper than the interpreter's recursion limit lets it go *)
  pprint_returns : json -> bool
}.

Record State : Type := mkState {
  unread : list string;
  trace : list Event
}.

(** The calls to [requests.get] in a log, oldest first, with their outcomes
    and without. *)
Fixpoint calls (tr : list Event) : list (Request * Outcome) :=
  match tr with
  | [] => []
  | Get q o :: rest => (q, o) :: calls rest
  | _ :: rest => calls rest
  end.

Fixpoint sent (tr : list Event) : list Request :=
  match tr with
  | [] => []
  | Get q _ :: rest => q :: sent rest
  | _ :: rest => sent rest
  end.

(** ** The monad of the notebook *)

Definition M (A : Type) : Type := World -> State -> State * result A.

Definition ret {A : Type} (a : A) : M A := fun _ s => (s, ok a).

Definition bind {A B : Type} (m : M A) (k : A -> M B) : M B :=
  fun w s =>
    match m w s with
    | (s', inr a) => k a w s'
    | (s', inl e) => (s', raise e)
    end.

Definition lift {A : Type} (r : result A) : M A := fun _ s => (s, r).

Declare Scope nb_scope.
Delimit Scope nb_scope with nb.
Notation "x <- c ;; k" := (bind c (fun x => k))
  (at level 100, c at next level, right associativity) : nb_scope.
Notation "c ;; k" := (bind c (fun _ => k))
  (at level 100, right associativity) : nb_scope.

Definition log (e : Event) (s : State) : State :=
  {| unread := unread s; trace := trace s ++ [e] |}.

Definition emit (e : Event) : M unit := fun _ s => (log e s, ok tt).

(** [print(args..., end=end_)]. *)
Definition print (args : list json) (end_ : string) : M unit :=
  emit (Print args end_).

Definition newline : string := String (Ascii.ascii_of_nat 10) EmptyString.

(** [pprint.pprint(v)]: it prints [v], or raises [RecursionError] when [v]
    is nested too deep for it. *)
Definition pprint (v : json) : M unit :=
  fun w s =>
    if pprint_returns w v then (log (PPrint v) s, ok tt)
    else (log (PPrintRaised v) s, raise RecursionError).

(** One line from the terminal. *)
Definition read_line (echo : bool) (prompt : string) : M string :=
  fun _ s =>
    match unread s with
    | [] => (log (Read echo prompt None) s, raise EOFError)
    | l :: rest =>
        ({| unread := rest; trace := trace s ++ [Read echo prompt (Some l)] |}, ok l)
    end.

(** [input()]: no prompt, the line is echoed. *)
Definition input : M string := read_line true EmptyString.

(** [getpass.getpass()]: the default prompt, the line is not echoed. *)
Definition getpass : M string := read_line false "Password: ".

(** [requests.get(url, auth=..., headers=..., params=...)]. *)
Definition requests_get (u : string) (a : option (string * string))
    (h p : option (gmap string string)) : M Response :=
  fun w s =>
    let q := {| method := GET; url := u; auth := a; headers := h; params := p |} in
    let o := transport w (sent (trace s)) q in
    match o with
    | Replied r => (log (Get q o) s, ok r)
    | Failed => (log (Get q o) s, raise RequestException)
    end.

(** ** The notebook *)

Section Notebook.

(** Python's [repr]. *)
Variable repr : json -> string.

(** [str(v)], which is also [format(v, '')]: a string is itself, any other
    of these values is its [repr]. *)
Definition py_str (v : json) : string :=
  match v with
  | JStr s => s
  | _ => repr v
  end.

(** [template.format(args...)]. *)
Fixpoint format (tpl : list piece) (args : list json) : result string :=
  match tpl with
  | [] => ok EmptyString
  | Lit s :: rest =>
      match format rest args with
      | inr t => ok (s +:+ t)
      | inl e => raise e
      end
  | Field i :: rest =>
      match args !! i with
      | Some v =>
          match format rest args with
          | inr t => ok (py_str v +:+ t)
          | inl e => raise e
          end
      | None => raise IndexError
      end
  end.

Definition token_url : string := "https://de.cyverse.org/terrain/token".
Definition apps_url : string := "https://de.cyverse.org/terrain/apps".

(** ["https://de.cyverse.org/terrain/apps/{0}/{1}"] *)
Definition detail_url_template : list piece :=
  [Lit "https://de.cyverse.org/terrain/apps/"; Field 0; Lit "/"; Field 1].

Local Open Scope nb_scope.

(** Cell 2: the prompts. *)
Definition cell_credentials : M (string * string) :=
  print [JStr "Username: "] EmptyString ;;
  username <- input ;;
  print [JStr "Password: "] EmptyString ;;
  password <- getpass ;;
  ret (username, password).

(** [r.json()['access_token']] *)
Definition token_of (r : Response) : result json :=
  match json_of r with
  | inr body => getitem body (KStr "access_token")
  | inl e => raise e
  end.

(** [{"Authorization": "Bearer " + token}] *)
Definition auth_headers_of (token : json) : result (gmap string string) :=
  match str_add "Bearer " token with
  | inr bearer => ok {[ "Authorization" := bearer ]}
  | inl e => raise e
  end.

(** Cell 3: the token exchange. *)
Definition cell_token (username password : string) : M (gmap string string) :=
  r <- requests_get token_url (Some (username, password)) None None ;;
  lift (raise_for_status r) ;;
  token <- lift (token_of r) ;;
  auth_headers <- lift (auth_headers_of token) ;;
  ret auth_headers.

(** Cell 4: the app search. *)
Definition cell_search (auth_headers : gmap string string) : M Response :=
  let query_params : gmap string string :=
    {[ "search" := "JupyterLab-with-sql-1.0.9" ]} in
  r <- requests_get apps_url None (Some auth_headers) (Some query_params) ;;
  lift (raise_for_status r) ;;
  body <- lift (json_of r) ;;
  pprint body ;;
  ret r.

(** [r.json()["apps"][0]] *)
Definition app_listing_of (r : Response) : result json :=
  match json_of r with
  | inr body =>
      match getitem body (KStr "apps") with
      | inr apps => getitem apps (KInt 0)
      | inl e => raise e
      end
  | inl e => raise e
  end.

(** Cell 5: the identifiers of the first search result. *)
Definition cell_select (r : Response) : M (json * json) :=
  app_listing <- lift (app_listing_of r) ;;
  system_id <- lift (getitem app_listing (KStr "system_id")) ;;
  app_id <- lift (getitem app_listing (KStr "id")) ;;
  print [JStr "System ID: "; system_id] newline ;;
  print [JStr "App ID: "; app_id] newline ;;
  ret (system_id, app_id).

(** Cell 6: the app description. *)
Definition cell_detail (auth_headers : gmap string string)
    (system_id app_id : json) : M unit :=
  url <- lift (format detail_url_template [system_id; app_id]) ;;
  r <- requests_get url None (Some auth_headers) None ;;
  lift (raise_for_status r) ;;
  body <- lift (json_of r) ;;
  pprint body.

(** The code cells in order; the first exception ends the run. Cell 1 only
    imports [getpass], [pprint] and [requests]. *)
Definition notebook : M unit :=
  credentials <- cell_credentials ;;
  let '(username, password) := credentials in
  auth_headers <- cell_token username password ;;
  r <- cell_search auth_headers ;;
  ids <- cell_select r ;;
  let '(system_id, app_id) := ids in
  cell_detail auth_headers system_id app_id.

Definition run (w : World) : State * result unit :=
  notebook w {| unread := keyboard w; trace := [] |}.

End Notebook.

(** ** Statuses *)

(** A 2xx status. *)
Definition success (r : Response) : Prop := (200 <= status_code r < 300)%Z.

(** A 4xx or 5xx status. *)
Definition error_status (r : Response) : Prop := (400 <= status_code r < 600)%Z.


(** ** Scripted worlds for the examples *)

(** The [n]-th call to [requests.get] gets the [n]-th scripted outcome. *)
Definition scripted (replies : list Outcome) : list Request -> Request -> Outcome :=
  fun history _ => default Failed (replies !! length history).

(** The examples format strings only, so [repr] is never called in them;
    they run with this one. *)
Definition repr_unused : json -> string := fun _ => EmptyString.

(** How deep a value is nested: a list or a dict is one level more than the
    deepest of its elements. *)
Fixpoint depth (v : json) : nat :=
  match v with
  | JList elems => S (foldr (fun x n => depth x `max` n) 0%nat elems)
  | JDict items => S (foldr (fun kv n => depth kv.2 `max` n) 0%nat items)
  | _ => 0%nat
  end.

(** The examples run with a pretty-printer that gets through fewer than 100
    levels of nesting and gives up on more. *)
Definition prints_shallow (v : json) : bool := bool_decide (depth v < 100)%nat.

(** [n] lists inside one another, around an empty list. *)
Definition nested (n : nat) : json := Nat.iter n (fun v => JList [v]) (JList []).

Definition reply (status : Z) (body : json) : Response :=
  {| status_code := status; content := Json body |}.

Definition token_body : json := JDict [("access_token", JStr "abc123")].

Definition search_body : json :=
  JDict [("apps",
    JList [JDict [("system_id", JStr "de"); ("id", JStr "X")];
           JDict [("system_id", JStr "agave"); ("id", JStr "Y")]])].

Definition detail_body : json :=
  JDict [("id", JStr "X"); ("name", JStr "JupyterLab-with-sql-1.0.9")].

Definition world_of (replies : list Outcome) : World :=
  {| keyboard := ["ipcdev"; "secret"]; transport := scripted replies;
     pprint_returns := prints_shallow |}.

(** Every call answered with 200. *)
Definition happy_world : World :=
  world_of [Replied (reply 200 token_body); Replied (reply 200 search_body);
            Replied (reply 200 detail_body)].

(** The token endpoint refuses the credentials. *)
Definition unauthorized : Response :=
  {| status_code := 401; content := NotJson "Unauthorized" |}.

Definition unauthorized_world : World := world_of [Replied unauthorized].

(** Nothing is typed at either prompt but the return key. *)
Definition blank_world : World :=
  {| keyboard := [EmptyString; EmptyString];
     transport := scripted [Replied unauthorized];
     pprint_returns := prints_shallow |}.

(** The token endpoint answers 200 without a token. *)
Definition no_token_body : json := JDict [("expires_in", JInt 3600)].

Definition no_token_world : World := world_of [Replied (reply 200 no_token_body)].

(** The search finds nothing. *)
Definition no_apps_body : json := JDict [("apps", JList [])].

Definition no_apps_world : World :=
  world_of [Replied (reply 200 token_body); Replied (reply 200 no_apps_body)].






(** The token endpoint answers 300 Multiple Choices, with a token. *)
Definition token_300_world : World :=
  world_of [Replied (reply 300 token_body); Replied (reply 200 search_body);
            Replied (reply 200 detail_body)].

Definition token_request (username password : string) : Request :=
  {| method := GET; url := token_url; auth := Some (username, password);
     headers := None; params := None |}.

(** The app search of the examples. *)
Definition search_request_abc123 : Request :=
  {| method := GET;
     url := apps_url;
     auth := None;
     headers := Some {[ "Authorization" := "Bearer abc123" ]};
     params := Some {[ "search" := "JupyterLab-with-sql-1.0.9" ]} |}.

(** The app-detail fetch of the examples. *)
Definition detail_request_X : Request :=
  {| method := GET;
     url := "https://de.cyverse.org/terrain/apps/de/X";
     auth := None;
     headers := Some {[ "Authorization" := "Bearer abc123" ]};
     params := None |}.

(** ** The identifiers read off the search reply *)

(** Lines 140-142 without the printing: [r.json()["apps"][0]], then its
    ["system_id"], then its ["id"]; the first failure is the exception. *)
Definition ids_of (r : Response) : result (json * json) :=
  match app_listing_of r with
  | inr app_listing =>
      match getitem app_listing (KStr "system_id") with
      | inr system_id =>
          match getitem app_listing (KStr "id") with
          | inr app_id => ok (system_id, app_id)
          | inl e => raise e
          end
      | inl e => raise e
      end
  | inl e => raise e
  end.

(** The exceptions that reading a response can raise. *)
Definition data_error (e : exn) : Prop :=
  match e with
  | JSONDecodeError | KeyError _ | IndexError | TypeError => True
  | _ => False
  end.

(** ** More scripted worlds *)

(** Only the username is typed before the input ends. *)
Definition one_line_world : World :=
  {| keyboard := ["ipcdev"]; transport := scripted [];
     pprint_returns := prints_shallow |}.

(** The network goes away after the token exchange. *)
Definition offline_world : World :=
  world_of [Replied (reply 200 token_body); Failed].

(** The token endpoint answers 200 with a page that is not JSON. *)
Definition html_page : Response :=
  {| status_code := 200; content := NotJson "<html></html>" |}.

Definition html_world : World := world_of [Replied html_page].

(** The token endpoint answers 200 with a null token. *)
Definition null_token_body : json := JDict [("access_token", JNull)].

Definition null_token_world : World :=
  world_of [Replied (reply 200 null_token_body)].

(** The token endpoint answers 200 with a JSON list. *)
Definition list_body_world : World :=
  world_of [Replied (reply 200 (JList [JStr "abc123"]))].



(** The search finds nothing, and says so in a listing nested 500 deep. *)
Definition deep_no_apps_body : json :=
  JDict [("apps", JList []); ("deep", nested 500)].

Definition deep_no_apps_world : World :=
  world_of [Replied (reply 200 token_body); Replied (reply 200 deep_no_apps_body)].

(** ** Facts about the library calls *)

Lemma raise_for_status_ok r :
  raise_for_status r = ok tt <-> ~ error_status r.
Proof.
  unfold raise_for_status, error_status.
  destruct (400 <=? status_code r)%Z eqn:E1, (status_code r <? 500)%Z eqn:E2,
    (500 <=? status_code r)%Z eqn:E3, (status_code r <? 600)%Z eqn:E4;
    simpl; split; intros H; try discriminate; try reflexivity; try lia;
    exfalso; apply H; lia.
Qed.

Lemma raise_for_status_raise r e :
  raise_for_status r = raise e -> e = HTTPError r /\ error_status r.
Proof.
  unfold raise_for_status, error_status.
  destruct (400 <=? status_code r)%Z eqn:E1, (status_code r <? 500)%Z eqn:E2,
    (500 <=? status_code r)%Z eqn:E3, (status_code r <? 600)%Z eqn:E4;
    simpl; intros H; simplify_eq; split; try reflexivity; lia.
Qed.

Lemma success_passes r : success r -> raise_for_status r = ok tt.
Proof.
  intros H. apply raise_for_status_ok. unfold success, error_status in *. lia.
Qed.







Lemma auth_headers_of_inv token h :
  auth_headers_of token = ok h ->
  exists t, token = JStr t /\ h = {[ "Authorization" := "Bearer " +:+ t ]}.
Proof.
  unfold auth_headers_of, str_add. destruct token; intros H; simplify_eq.
  eexists; split; reflexivity.
Qed.

Lemma append_empty_r (s : string) : s +:+ EmptyString = s.
Proof.
  induction s as [|c s IH]; [reflexivity|].
  change (String c s +:+ EmptyString) with (String c (s +:+ EmptyString)).
  by rewrite IH.
Qed.

Lemma format_detail_url repr system_id app_id :
  format repr detail_url_template [system_id; app_id] =
    ok ("https://de.cyverse.org/terrain/apps/" +:+ py_str repr system_id
          +:+ "/" +:+ py_str repr app_id).
Proof.
  cbn [format detail_url_template lookup list_lookup].
  rewrite append_empty_r. reflexivity.
Qed.

Lemma detail_url_not_token (x : string) :
  "https://de.cyverse.org/terrain/apps/" +:+ x <> token_url.
Proof. unfold token_url. cbn [String.append]. discriminate. Qed.

Lemma apps_url_not_token : apps_url <> token_url.
Proof. unfold token_url, apps_url. discriminate. Qed.

(** [dict_get] finds a key exactly when some item has it, and for distinct
    keys it returns the value of that item. *)
Lemma dict_get_is_Some k items :
  is_Some (dict_get k items) <-> exists v, In (k, v) items.
Proof.
  induction items as [|[k' v'] items IH]; simpl.
  - split; [intros [? ?]; discriminate | intros [? []]].
  - destruct (dict_get k items) as [x|] eqn:E.
    + split; [intros _ | eauto].
      destruct (proj1 IH) as [v Hv]; eauto.
    + destruct (String.eqb k k') eqn:Ek.
      * apply String.eqb_eq in Ek as ->. split; eauto.
      * apply String.eqb_neq in Ek.
        split; [intros [? ?]; discriminate|].
        intros [v [Hv|Hv]]; [congruence|].
        destruct (proj2 IH) as [? ?]; [eauto | discriminate].
Qed.

Lemma dict_get_In k v items :
  NoDup (map fst items) -> In (k, v) items -> dict_get k items = Some v.
Proof.
  induction items as [|[k' v'] items IH]; simpl; [intros _ []|].
  intros Hnd [Heq|Hin]; apply NoDup_cons in Hnd as [Hk Hnd].
  - simplify_eq. destruct (dict_get k items) as [x|] eqn:E.
    + exfalso. apply Hk. apply list_elem_of_In, in_map_iff.
      destruct (proj1 (dict_get_is_Some k items)) as [y Hy]; [eauto|].
      exists (k, y). split; [reflexivity | assumption].
    + by rewrite String.eqb_refl.
  - by rewrite (IH Hnd Hin).
Qed.

(** ** Running the notebook symbolically *)(** ** Running the notebook symbolically *)

Ltac head_scrutinee t :=
  lazymatch t with
  | match ?x with _ => _ end => head_scrutinee x
  | _ => t
  end.

Ltac run_step H :=
  rewrite ?format_detail_url in H;
  lazymatch type of H with
  | (_, _) = (_, _) => fail
  | ?lhs = _ => let x := head_scrutinee lhs in destruct x eqn:?
  end;
  cbn [unread trace sent app] in H.

(** Splits [H : run repr w = (s, res)] into the ways the run can go. *)
Ltac run_cases H :=
  unfold run, notebook, cell_credentials, cell_token, cell_search, cell_select,
    cell_detail, bind, ret, lift, print, pprint, emit, input, getpass, read_line,
    requests_get, log in H;
  cbn [unread trace sent app] in H;
  repeat run_step H;
  simplify_eq.

Ltac run_init repr w s res Hrun :=
  destruct (run repr w) as [s res] eqn:Hrun; run_cases Hrun;
  cbn [fst snd trace calls app] in *; simplify_eq/=.

Ltac status_facts :=
  repeat match goal with
  | u : unit |- _ => destruct u
  | H : raise_for_status _ = inl _ |- _ =>
      apply raise_for_status_raise in H as [-> ?]
  | H : raise_for_status _ = inr _ |- _ => apply raise_for_status_ok in H
  end.


Ltac two_xx := unfold success, reply; simpl; lia.

Lemma json_of_raises r e : json_of r = raise e -> data_error e.
Proof. unfold json_of. destruct (content r); intros; simplify_eq. exact I. Qed.

Lemma getitem_raises v k e : getitem v k = raise e -> data_error e.
Proof.
  unfold getitem. intros H.
  destruct v, k; repeat case_match; simplify_eq; exact I.
Qed.

Lemma token_of_raises r e : token_of r = raise e -> data_error e.
Proof.
  unfold token_of. destruct (json_of r) eqn:E; intros H; simplify_eq.
  - by eapply json_of_raises.
  - by eapply getitem_raises.
Qed.

Lemma auth_headers_of_raises token e :
  auth_headers_of token = raise e -> e = TypeError.
Proof. unfold auth_headers_of, str_add. destruct token; intros; by simplify_eq. Qed.

Lemma auth_headers_of_not_str token e :
  auth_headers_of token = raise e -> e = TypeError /\ forall t, token <> JStr t.
Proof.
  unfold auth_headers_of, str_add.
  destruct token; intros; simplify_eq; split; done.
Qed.

Lemma app_listing_of_raises r e : app_listing_of r = raise e -> data_error e.
Proof.
  unfold app_listing_of. destruct (json_of r) as [|body] eqn:E; intros H; simplify_eq.
  - by eapply json_of_raises.
  - destruct (getitem body (KStr "apps")) eqn:E2; simplify_eq;
      by eapply getitem_raises.
Qed.

Ltac data_errors :=
  repeat match goal with
  | H : json_of _ = inl _ |- _ => apply json_of_raises in H
  | H : getitem _ _ = inl _ |- _ => apply getitem_raises in H
  | H : token_of _ = inl _ |- _ => apply token_of_raises in H
  | H : auth_headers_of _ = inl _ |- _ => apply auth_headers_of_raises in H as ->
  | H : app_listing_of _ = inl _ |- _ => apply app_listing_of_raises in H
  end.

Ltac headers_facts :=
  repeat match goal with
  | H : auth_headers_of _ = inr _ |- _ =>
      apply auth_headers_of_inv in H as (? & ? & ->); simplify_eq
  end.

(** Rewrites [ids_of] with what the run found out about the search reply. *)
Ltac ids_facts :=
  repeat match goal with
  | H : app_listing_of _ = _ |- _ => rewrite H in *
  | H : getitem _ (KStr "system_id") = _ |- _ => rewrite H in *
  | H : getitem _ (KStr "id") = _ |- _ => rewrite H in *
  end.

(** ** The claims *)

(** C1. Once a token string [t] has been extracted from a successful (2xx)
    response of the token endpoint, the notebook goes on to call
    [requests.get] again, and every call after the first (the app search and
    the app-detail fetch) is made with a header dict whose "Authorization"
    entry is exactly "Bearer " followed by [t], character for character. *)
Theorem bearer_token_on_later_calls repr w q0 r0 t :
  calls (trace (run repr w).1) !! 0%nat = Some (q0, Replied r0) ->
  success r0 ->
  token_of r0 = ok (JStr t) ->
  (exists q1 o1, calls (trace (run repr w).1) !! 1%nat = Some (q1, o1)) /\
  forall i q o,
    (0 < i)%nat ->
    calls (trace (run repr w).1) !! i = Some (q, o) ->
    exists h, headers q = Some h /\
              h !! "Authorization" = Some ("Bearer " +:+ t).
Proof.
  intros Hcall Hs Htok. apply success_passes in Hs.
  run_init repr w s res Hrun.
  all: try congruence.
  all: rewrite Htok in *; simplify_eq.
  all: repeat match goal with
       | H : auth_headers_of _ = inr _ |- _ =>
           apply auth_headers_of_inv in H as (? & ? & ->); simplify_eq
       end.
  all: try done.
  all: (split; [eauto|]); intros [|[|[|i]]] q o Hi Hq; try lia; simplify_eq/=.
  all: eexists; split; [reflexivity | apply lookup_singleton_eq].
Qed.

Lemma bearer_token_on_later_calls_witness :
  (exists q1 o1, calls (trace (run repr_unused happy_world).1) !! 1%nat = Some (q1, o1)) /\
  forall i q o,
    (0 < i)%nat ->
    calls (trace (run repr_unused happy_world).1) !! i = Some (q, o) ->
    exists h, headers q = Some h /\ h !! "Authorization" = Some "Bearer abc123".
Proof.
  apply (bearer_token_on_later_calls repr_unused happy_world
           (token_request "ipcdev" "secret") (reply 200 token_body) "abc123");
    [reflexivity | two_xx | reflexivity].
Defined.






(** C4, as the code has it. If the token endpoint answers with a client or
    server error, [400 <= status < 600] (401 for one), the run ends with an
    [HTTPError] carrying that response, and the call to the token endpoint
    is the only call made: no app search and no app-detail fetch. *)
Theorem token_error_status_aborts repr w q r :
  calls (trace (run repr w).1) !! 0%nat = Some (q, Replied r) ->
  error_status r ->
  (run repr w).2 = raise (HTTPError r) /\
  calls (trace (run repr w).1) = [(q, Replied r)] /\
  url q = token_url.
Proof.
  intros Hcall Herr.
  run_init repr w s res Hrun.
  all: status_facts; try done.
Qed.

Lemma token_error_status_aborts_witness :
  (run repr_unused unauthorized_world).2 = raise (HTTPError unauthorized) /\
  calls (trace (run repr_unused unauthorized_world).1)
    = [(token_request "ipcdev" "secret", Replied unauthorized)] /\
  url (token_request "ipcdev" "secret") = token_url.
Proof.
  apply (token_error_status_aborts repr_unused unauthorized_world
           (token_request "ipcdev" "secret") unauthorized);
    [reflexivity | unfold error_status; simpl; lia].
Defined.

(** C4, as stated, fails. The token endpoint answers 300, which is not a
    success status, with a token in the body; no HTTP error is raised and
    the notebook goes on to the app search and to the app-detail fetch. *)
Lemma token_non_success_not_aborted :
  calls (trace (run repr_unused token_300_world).1) !! 0%nat
    = Some (token_request "ipcdev" "secret", Replied (reply 300 token_body)) /\
  ~ success (reply 300 token_body) /\
  calls (trace (run repr_unused token_300_world).1) !! 1%nat
    = Some (search_request_abc123, Replied (reply 200 search_body)) /\
  calls (trace (run repr_unused token_300_world).1) !! 2%nat
    = Some (detail_request_X, Replied (reply 200 detail_body)) /\
  (run repr_unused token_300_world).2 = ok tt.
Proof.
  split; [reflexivity|].
  split; [unfold success; simpl; lia|].
  repeat split; reflexivity.
Qed.

(** C5. When the search succeeds with a listing whose "apps" list is empty,
    taking its first element raises [IndexError], and no app-detail fetch is
    made: exactly two calls are. The run ends with that [IndexError], unless
    the listing could not be pretty-printed, in which case it has already
    ended with [RecursionError] before the first element is asked for. *)
Theorem empty_search_result_index_error repr w q r body :
  calls (trace (run repr w).1) !! 1%nat = Some (q, Replied r) ->
  success r ->
  json_of r = ok body ->
  getitem body (KStr "apps") = ok (JList []) ->
  app_listing_of r = raise IndexError /\
  length (calls (trace (run repr w).1)) = 2%nat /\
  (run repr w).2 =
    (if pprint_returns w body then raise IndexError else raise RecursionError).
Proof.
  intros Hcall Hs Hbody Happs. apply success_passes in Hs.
  assert (Hlisting : app_listing_of r = raise IndexError).
  { unfold app_listing_of. by rewrite Hbody, Happs. }
  split; [exact Hlisting|].
  run_init repr w s res Hrun.
  all: try congruence.
  all: rewrite ?Hbody, ?Hlisting in *; simplify_eq.
  all: repeat match goal with H : pprint_returns _ _ = _ |- _ => rewrite H end.
  all: done.
Qed.

Lemma empty_search_result_index_error_witness :
  app_listing_of (reply 200 no_apps_body) = raise IndexError /\
  length (calls (trace (run repr_unused no_apps_world).1)) = 2%nat /\
  (run repr_unused no_apps_world).2 = raise IndexError.
Proof.
  apply (empty_search_result_index_error repr_unused no_apps_world
           search_request_abc123 (reply 200 no_apps_body) no_apps_body);
    [reflexivity | two_xx | reflexivity | reflexivity].
Defined.

(** C6. When the detail endpoint succeeds with a body that parses as JSON,
    to the value [v], the last thing the notebook does is hand [v] itself to
    [pprint.pprint]: nothing is changed in it and nothing is taken out of it.
    The run then ends without an exception, or with the printer's
    [RecursionError] when [v] is nested too deep for it. *)
Theorem detail_passed_to_printer repr w q r v :
  calls (trace (run repr w).1) !! 2%nat = Some (q, Replied r) ->
  success r ->
  content r = Json v ->
  last (trace (run repr w).1) =
    Some (if pprint_returns w v then PPrint v else PPrintRaised v) /\
  (run repr w).2 =
    (if pprint_returns w v then ok tt else raise RecursionError).
Proof.
  intros Hcall Hs Hv. apply success_passes in Hs.
  run_init repr w s res Hrun.
  all: unfold json_of in *; rewrite ?Hv in *; simplify_eq/=.
  all: try congruence.
  all: repeat match goal with H : pprint_returns _ _ = _ |- _ => rewrite H end.
  all: done.
Qed.

Lemma detail_passed_to_printer_witness :
  last (trace (run repr_unused happy_world).1) = Some (PPrint detail_body) /\
  (run repr_unused happy_world).2 = ok tt.
Proof.
  apply (detail_passed_to_printer repr_unused happy_world detail_request_X
           (reply 200 detail_body) detail_body);
    [reflexivity | two_xx | reflexivity].
Defined.

(** C7. Whenever the app-detail fetch (the third call) is made, it is a GET,
    and its URL is the text "https://de.cyverse.org/terrain/apps/" followed
    by the "system_id" of the first search result, a slash, and the "id" of
    the first search result, in that order. *)
Theorem detail_url_shape repr w q o :
  calls (trace (run repr w).1) !! 2%nat = Some (q, o) ->
  method q = GET /\
  exists q1 r1 app_listing system_id app_id,
    calls (trace (run repr w).1) !! 1%nat = Some (q1, Replied r1) /\
    app_listing_of r1 = ok app_listing /\
    getitem app_listing (KStr "system_id") = ok system_id /\
    getitem app_listing (KStr "id") = ok app_id /\
    url q = "https://de.cyverse.org/terrain/apps/" +:+ py_str repr system_id
              +:+ "/" +:+ py_str repr app_id.
Proof.
  intros Hcall.
  run_init repr w s res Hrun.
  all: split; [reflexivity|]; eauto 10.
Qed.

Lemma detail_url_shape_witness :
  method detail_request_X = GET /\
  exists q1 r1 app_listing system_id app_id,
    calls (trace (run repr_unused happy_world).1) !! 1%nat = Some (q1, Replied r1) /\
    app_listing_of r1 = ok app_listing /\
    getitem app_listing (KStr "system_id") = ok system_id /\
    getitem app_listing (KStr "id") = ok app_id /\
    url detail_request_X =
      "https://de.cyverse.org/terrain/apps/" +:+ py_str repr_unused system_id
        +:+ "/" +:+ py_str repr_unused app_id.
Proof.
  apply (detail_url_shape repr_unused happy_world detail_request_X
           (Replied (reply 200 detail_body))).
  reflexivity.
Defined.

(** C8. Whatever two lines are typed at the prompts, empty ones included,
    each prompt is read once and the next thing the notebook does is one GET
    of the token endpoint with exactly those two strings as HTTP Basic
    credentials; afterwards it neither reads from the terminal again nor
    calls the token endpoint again. *)
Theorem token_exchange_basic_auth repr w username password rest :
  keyboard w = username :: password :: rest ->
  exists o tail,
    trace (run repr w).1 =
      [Print [JStr "Username: "] EmptyString;
       Read true EmptyString (Some username);
       Print [JStr "Password: "] EmptyString;
       Read false "Password: " (Some password);
       Get (token_request username password) o] ++ tail /\
    (forall q o', In (Get q o') tail -> url q <> token_url) /\
    (forall echo prompt line, ~ In (Read echo prompt line) tail).
Proof.
  intros Hkeys.
  run_init repr w s res Hrun.
  all: do 2 eexists; split; [reflexivity|].
  all: split; [intros q o' Hin | intros echo prompt line Hin].
  all: simpl in Hin; repeat (destruct Hin as [Hin|Hin]; [simplify_eq/=|]).
  all: try done.
  all: auto using detail_url_not_token, apps_url_not_token.
Qed.

Lemma token_exchange_basic_auth_witness :
  exists o tail,
    trace (run repr_unused blank_world).1 =
      [Print [JStr "Username: "] EmptyString;
       Read true EmptyString (Some EmptyString);
       Print [JStr "Password: "] EmptyString;
       Read false "Password: " (Some EmptyString);
       Get (token_request EmptyString EmptyString) o] ++ tail /\
    (forall q o', In (Get q o') tail -> url q <> token_url) /\
    (forall echo prompt line, ~ In (Read echo prompt line) tail).
Proof.
  apply (token_exchange_basic_auth repr_unused blank_world
           EmptyString EmptyString []).
  reflexivity.
Defined.

(** C9. For a successful (2xx) response of the token endpoint,
    [r.json()['access_token']] yields a token exactly when the body parses
    to a dict one of whose items has the key "access_token", and for a dict
    with distinct keys the token is the value of that item. When a token is
    yielded the notebook goes on to build the header from it: it makes the
    second call if the token is a string and ends with [TypeError] if not.
    When none is yielded the run ends with the exception raised, after the
    one call; for a dict without the key that is [KeyError('access_token')],
    the 2xx status notwithstanding. *)
Theorem token_extraction_partial repr w q r :
  calls (trace (run repr w).1) !! 0%nat = Some (q, Replied r) ->
  success r ->
  ((exists token, token_of r = ok token) <->
     (exists items v, content r = Json (JDict items) /\
                      In ("access_token", v) items)) /\
  (forall items v,
     content r = Json (JDict items) ->
     NoDup (map fst items) ->
     In ("access_token", v) items ->
     token_of r = ok v) /\
  (forall token,
     token_of r = ok token ->
     (exists t q1 o1,
        token = JStr t /\
        calls (trace (run repr w).1) !! 1%nat = Some (q1, o1) /\
        headers q1 = Some {[ "Authorization" := "Bearer " +:+ t ]}) \/
     ((forall t, token <> JStr t) /\
      (run repr w).2 = raise TypeError /\
      length (calls (trace (run repr w).1)) = 1%nat)) /\
  (forall e,
     token_of r = raise e ->
     (run repr w).2 = raise e /\
     length (calls (trace (run repr w).1)) = 1%nat) /\
  (forall items,
     content r = Json (JDict items) ->
     (forall v, ~ In ("access_token", v) items) ->
     (run repr w).2 = raise (KeyError (KStr "access_token"))).
Proof.
  intros Hcall Hs. apply success_passes in Hs.
  split; [|split; [|split; [|split]]].
  - unfold token_of, json_of, getitem. split.
    + intros [token H]. destruct (content r) as [[]|]; simplify_eq.
      destruct (dict_get "access_token" items) eqn:E; simplify_eq.
      destruct (proj1 (dict_get_is_Some "access_token" items)) as [v Hv]; eauto.
    + intros (items & v & -> & Hin).
      destruct (proj2 (dict_get_is_Some "access_token" items)) as [x ->]; eauto.
  - intros items v Hitems Hnd Hin.
    unfold token_of, json_of, getitem.
    by rewrite Hitems, (dict_get_In _ _ _ Hnd Hin).
  - intros token Htok.
    run_init repr w s res Hrun.
    all: try congruence.
    all: rewrite Htok in *; simplify_eq.
    all: headers_facts.
    all: repeat match goal with
         | H : auth_headers_of _ = inl _ |- _ =>
             apply auth_headers_of_not_str in H as [-> ?]
         end.
    all: first
      [ (left; do 3 eexists; split; [reflexivity|]; split; reflexivity)
      | (right; split; [assumption | done]) ].
  - intros exc Hexc.
    run_init repr w s res Hrun; try congruence.
    all: rewrite Hexc in *; by simplify_eq.
  - intros items Hitems Hnone.
    assert (Htok : token_of r = raise (KeyError (KStr "access_token"))).
    { unfold token_of, json_of, getitem. rewrite Hitems.
      destruct (dict_get "access_token" items) eqn:E; [|reflexivity].
      destruct (proj1 (dict_get_is_Some "access_token" items)) as [v Hv]; eauto.
      by destruct (Hnone v). }
    run_init repr w s res Hrun; congruence.
Qed.

Lemma token_extraction_partial_witness :
  token_of (reply 200 token_body) = ok (JStr "abc123") /\
  (exists q1 o1,
     calls (trace (run repr_unused happy_world).1) !! 1%nat = Some (q1, o1) /\
     headers q1 = Some {[ "Authorization" := "Bearer abc123" ]}).
Proof.
  destruct (token_extraction_partial repr_unused happy_world
              (token_request "ipcdev" "secret") (reply 200 token_body)
              eq_refl ltac:(two_xx)) as (_ & Hvalue & Hnext & _ & _).
  assert (Htok : token_of (reply 200 token_body) = ok (JStr "abc123")).
  { apply (Hvalue [("access_token", JStr "abc123")]);
      [reflexivity | simpl; apply NoDup_singleton | simpl; tauto]. }
  split; [exact Htok|].
  destruct (Hnext _ Htok) as [(t & q1 & o1 & Ht & Hq1 & Hh) | [Hnot _]].
  - injection Ht as <-. exists q1, o1. split; assumption.
  - destruct (Hnot "abc123" eq_refl).
Defined.



(** ** Further properties of the notebook *)

(** X1. The run ends with [EOFError] exactly when fewer than two lines can
    be read at the prompts, and then [requests.get] is never called: nothing
    is sent before both the username and the password are read. *)
Theorem eof_iff_short_input repr w :
  ((run repr w).2 = raise EOFError <-> (length (keyboard w) < 2)%nat) /\
  ((length (keyboard w) < 2)%nat -> calls (trace (run repr w).1) = []).
Proof.
  run_init repr w s res Hrun.
  all: status_facts; data_errors.
  all: simpl; split;
       [split; intros ?; simplify_eq/=; try done; try lia
       | intros ?; try done; try lia].
Qed.

Lemma eof_iff_short_input_witness :
  (run repr_unused one_line_world).2 = raise EOFError /\
  calls (trace (run repr_unused one_line_world).1) = [].
Proof.
  destruct (eof_iff_short_input repr_unused one_line_world) as [[_ Heof] Hcalls].
  assert (Hshort : (length (keyboard one_line_world) < 2)%nat) by (simpl; lia).
  split; [exact (Heof Hshort) | exact (Hcalls Hshort)].
Defined.

(** X2. The calls come in a fixed order and only the first carries the
    credentials. The first call is the token request with the two typed
    lines as Basic credentials. Any later call is made without [auth], with
    exactly one header, "Authorization", holding "Bearer " and the token
    string of the first reply; the second call is the search at the apps URL
    with the one query parameter search=JupyterLab-with-sql-1.0.9, and the
    third has no query parameters. *)
Theorem calls_in_order repr w i q o :
  calls (trace (run repr w).1) !! i = Some (q, o) ->
  (i = 0%nat /\
   exists username password rest,
     keyboard w = username :: password :: rest /\
     q = token_request username password) \/
  (exists q0 r0 t,
     calls (trace (run repr w).1) !! 0%nat = Some (q0, Replied r0) /\
     token_of r0 = ok (JStr t) /\
     auth q = None /\
     headers q = Some {[ "Authorization" := "Bearer " +:+ t ]} /\
     ((i = 1%nat /\ url q = apps_url /\
       params q = Some {[ "search" := "JupyterLab-with-sql-1.0.9" ]}) \/
      (i = 2%nat /\ params q = None))).
Proof.
  intros Hcall.
  run_init repr w s res Hrun.
  all: destruct i as [|[|[|i]]]; simplify_eq/=.
  all: headers_facts.
  all: try (left; split; [reflexivity|]; eauto; fail).
  all: right; do 3 eexists; split; [reflexivity|]; split; [eassumption|].
  all: split; [reflexivity|]; split; [reflexivity|].
  all: try (left; repeat split; reflexivity).
  all: right; split; reflexivity.
Qed.

Lemma calls_in_order_witness :
  exists q0 r0 t,
    calls (trace (run repr_unused happy_world).1) !! 0%nat = Some (q0, Replied r0) /\
    token_of r0 = ok (JStr t) /\
    auth detail_request_X = None /\
    headers detail_request_X = Some {[ "Authorization" := "Bearer " +:+ t ]} /\
    params detail_request_X = None.
Proof.
  destruct (calls_in_order repr_unused happy_world 2 detail_request_X
              (Replied (reply 200 detail_body)) eq_refl)
    as [[Hi _] | (q0 & r0 & t & H0 & Ht & Ha & Hh & [[Hi _] | [_ Hp]])];
    try discriminate Hi.
  exists q0, r0, t. repeat split; assumption.
Defined.

(** X3. When a call to [requests.get] raises instead of returning, the run
    ends there with that [RequestException]: the failed call is the last
    thing logged and no further call is made. *)
Theorem request_failure_ends_run repr w i q :
  calls (trace (run repr w).1) !! i = Some (q, Failed) ->
  (run repr w).2 = raise RequestException /\
  last (trace (run repr w).1) = Some (Get q Failed) /\
  length (calls (trace (run repr w).1)) = S i.
Proof.
  intros Hcall.
  run_init repr w s res Hrun.
  all: destruct i as [|[|[|i]]]; simplify_eq/=; done.
Qed.

Lemma request_failure_ends_run_witness :
  (run repr_unused offline_world).2 = raise RequestException /\
  last (trace (run repr_unused offline_world).1)
    = Some (Get search_request_abc123 Failed) /\
  length (calls (trace (run repr_unused offline_world).1)) = 2%nat.
Proof.
  apply (request_failure_ends_run repr_unused offline_world 1
           search_request_abc123).
  reflexivity.
Defined.

(** X4. When a reply passes the status check but its body is not JSON, the
    run ends with [JSONDecodeError] right after that call, whichever of the
    three calls it is: nothing is printed after it and no further call is
    made. *)
Theorem body_not_json_ends_run repr w i q r raw :
  calls (trace (run repr w).1) !! i = Some (q, Replied r) ->
  ~ error_status r ->
  content r = NotJson raw ->
  (run repr w).2 = raise JSONDecodeError /\
  last (trace (run repr w).1) = Some (Get q (Replied r)) /\
  length (calls (trace (run repr w).1)) = S i.
Proof.
  intros Hcall Hst Hraw.
  assert (Hj : json_of r = raise JSONDecodeError)
    by (unfold json_of; by rewrite Hraw).
  assert (Ht : token_of r = raise JSONDecodeError)
    by (unfold token_of; by rewrite Hj).
  assert (Ha : app_listing_of r = raise JSONDecodeError)
    by (unfold app_listing_of; by rewrite Hj).
  run_init repr w s res Hrun.
  all: destruct i as [|[|[|i]]]; simplify_eq/=.
  all: status_facts; try done; try congruence.
  all: repeat split; congruence.
Qed.

Lemma body_not_json_ends_run_witness :
  (run repr_unused html_world).2 = raise JSONDecodeError /\
  last (trace (run repr_unused html_world).1)
    = Some (Get (token_request "ipcdev" "secret") (Replied html_page)) /\
  length (calls (trace (run repr_unused html_world).1)) = 1%nat.
Proof.
  apply (body_not_json_ends_run repr_unused html_world 0
           (token_request "ipcdev" "secret") html_page "<html></html>");
    [reflexivity | unfold error_status; simpl; lia | reflexivity].
Defined.

(** X5. When the token reply passes the status check and has an
    "access_token" that is not a string (null, a number, ...), building the
    header raises [TypeError] and the run ends after the one call: no request
    is ever made with a token that is not a string. *)
Theorem token_not_string_type_error repr w q r token :
  calls (trace (run repr w).1) !! 0%nat = Some (q, Replied r) ->
  ~ error_status r ->
  token_of r = ok token ->
  (forall t, token <> JStr t) ->
  (run repr w).2 = raise TypeError /\
  calls (trace (run repr w).1) = [(q, Replied r)].
Proof.
  intros Hcall Hst Htok Hnot.
  run_init repr w s res Hrun.
  all: status_facts; try done; try congruence.
  all: rewrite Htok in *; simplify_eq.
  all: headers_facts; data_errors.
  all: try done.
  all: exfalso; eapply Hnot; reflexivity.
Qed.

Lemma token_not_string_type_error_witness :
  (run repr_unused null_token_world).2 = raise TypeError /\
  calls (trace (run repr_unused null_token_world).1)
    = [(token_request "ipcdev" "secret", Replied (reply 200 null_token_body))].
Proof.
  apply (token_not_string_type_error repr_unused null_token_world
           (token_request "ipcdev" "secret") (reply 200 null_token_body) JNull);
    [reflexivity | unfold error_status; simpl; lia | reflexivity
    | intros t; discriminate].
Defined.

(** X6. When the token reply passes the status check and its body is JSON
    but not an object (a list, a string, a number, null), subscripting it
    with 'access_token' raises [TypeError] and the run ends after the one
    call. *)
Theorem token_body_not_object_type_error repr w q r v :
  calls (trace (run repr w).1) !! 0%nat = Some (q, Replied r) ->
  ~ error_status r ->
  content r = Json v ->
  (forall items, v <> JDict items) ->
  (run repr w).2 = raise TypeError /\
  calls (trace (run repr w).1) = [(q, Replied r)].
Proof.
  intros Hcall Hst Hv Hnot.
  assert (Htok : token_of r = raise TypeError).
  { unfold token_of, json_of. rewrite Hv.
    destruct v; try reflexivity. by destruct (Hnot items). }
  run_init repr w s res Hrun.
  all: status_facts; try done; try congruence.
  all: repeat split; congruence.
Qed.

Lemma token_body_not_object_type_error_witness :
  (run repr_unused list_body_world).2 = raise TypeError /\
  calls (trace (run repr_unused list_body_world).1)
    = [(token_request "ipcdev" "secret",
        Replied (reply 200 (JList [JStr "abc123"])))].
Proof.
  apply (token_body_not_object_type_error repr_unused list_body_world
           (token_request "ipcdev" "secret")
           (reply 200 (JList [JStr "abc123"])) (JList [JStr "abc123"]));
    [reflexivity | unfold error_status; simpl; lia | reflexivity
    | intros items; discriminate].
Defined.









(** X11. Whenever the app-detail fetch is made, the two identifiers in its
    URL are the ones printed before it after "System ID: " and "App ID: ". *)
Theorem printed_ids_are_fetched repr w q o :
  calls (trace (run repr w).1) !! 2%nat = Some (q, o) ->
  exists system_id app_id,
    In (Print [JStr "System ID: "; system_id] newline) (trace (run repr w).1) /\
    In (Print [JStr "App ID: "; app_id] newline) (trace (run repr w).1) /\
    url q = "https://de.cyverse.org/terrain/apps/" +:+ py_str repr system_id
              +:+ "/" +:+ py_str repr app_id.
Proof.
  intros Hcall.
  run_init repr w s res Hrun.
  all: do 2 eexists; split; [|split; [|reflexivity]]; simpl; tauto.
Qed.

Lemma printed_ids_are_fetched_witness :
  exists system_id app_id,
    In (Print [JStr "System ID: "; system_id] newline)
       (trace (run repr_unused happy_world).1) /\
    In (Print [JStr "App ID: "; app_id] newline)
       (trace (run repr_unused happy_world).1) /\
    url detail_request_X =
      "https://de.cyverse.org/terrain/apps/" +:+ py_str repr_unused system_id
        +:+ "/" +:+ py_str repr_unused app_id.
Proof.
  apply (printed_ids_are_fetched repr_unused happy_world detail_request_X
           (Replied (reply 200 detail_body))).
  reflexivity.
Defined.

(** X12. A run that ends without an exception has this transcript and no
    other: the two prompts and the two lines read, the token call, the
    search call, the listing pretty-printed, the two identifier lines, the
    detail call, the description pretty-printed. All three replies passed
    the status check, and the token was a string. *)
Theorem clean_run_transcript repr w :
  (run repr w).2 = ok tt ->
  exists username password rest r0 t r1 listing system_id app_id r2 detail,
    keyboard w = username :: password :: rest /\
    token_of r0 = ok (JStr t) /\
    json_of r1 = ok listing /\
    ids_of r1 = ok (system_id, app_id) /\
    json_of r2 = ok detail /\
    ~ error_status r0 /\ ~ error_status r1 /\ ~ error_status r2 /\
    trace (run repr w).1 =
      [Print [JStr "Username: "] EmptyString;
       Read true EmptyString (Some username);
       Print [JStr "Password: "] EmptyString;
       Read false "Password: " (Some password);
       Get (token_request username password) (Replied r0);
       Get {| method := GET; url := apps_url; auth := None;
              headers := Some {[ "Authorization" := "Bearer " +:+ t ]};
              params := Some {[ "search" := "JupyterLab-with-sql-1.0.9" ]} |}
           (Replied r1);
       PPrint listing;
       Print [JStr "System ID: "; system_id] newline;
       Print [JStr "App ID: "; app_id] newline;
       Get {| method := GET;
              url := "https://de.cyverse.org/terrain/apps/"
                       +:+ py_str repr system_id +:+ "/" +:+ py_str repr app_id;
              auth := None;
              headers := Some {[ "Authorization" := "Bearer " +:+ t ]};
              params := None |}
           (Replied r2);
       PPrint detail].
Proof.
  intros Hok.
  run_init repr w s res Hrun.
  status_facts. headers_facts.
  do 11 eexists.
  repeat split.
  all: try eassumption.
  unfold ids_of. ids_facts. reflexivity.
Qed.

Lemma clean_run_transcript_witness :
  exists username password rest r0 t r1 listing system_id app_id r2 detail,
    keyboard happy_world = username :: password :: rest /\
    token_of r0 = ok (JStr t) /\
    json_of r1 = ok listing /\
    ids_of r1 = ok (system_id, app_id) /\
    json_of r2 = ok detail /\
    ~ error_status r0 /\ ~ error_status r1 /\ ~ error_status r2 /\
    trace (run repr_unused happy_world).1 =
      [Print [JStr "Username: "] EmptyString;
       Read true EmptyString (Some username);
       Print [JStr "Password: "] EmptyString;
       Read false "Password: " (Some password);
       Get (token_request username password) (Replied r0);
       Get {| method := GET; url := apps_url; auth := None;
              headers := Some {[ "Authorization" := "Bearer " +:+ t ]};
              params := Some {[ "search" := "JupyterLab-with-sql-1.0.9" ]} |}
           (Replied r1);
       PPrint listing;
       Print [JStr "System ID: "; system_id] newline;
       Print [JStr "App ID: "; app_id] newline;
       Get {| method := GET;
              url := "https://de.cyverse.org/terrain/apps/"
                       +:+ py_str repr_unused system_id +:+ "/"
                       +:+ py_str repr_unused app_id;
              auth := None;
              headers := Some {[ "Authorization" := "Bearer " +:+ t ]};
              params := None |}
           (Replied r2);
       PPrint detail].
Proof.
  apply (clean_run_transcript repr_unused happy_world).
  reflexivity.
Defined.

(** X13. When the search reply or the detail reply passes the status check
    and its body parses but cannot be pretty-printed, the run ends with
    [RecursionError] in [pprint.pprint]: that is the last thing it does, and
    no further call is made. For the search reply, then, neither
    identifier is read or printed and the app description is not fetched. *)
Theorem pprint_failure_ends_run repr w i q r body :
  calls (trace (run repr w).1) !! i = Some (q, Replied r) ->
  (0 < i)%nat ->
  ~ error_status r ->
  json_of r = ok body ->
  pprint_returns w body = false ->
  (run repr w).2 = raise RecursionError /\
  last (trace (run repr w).1) = Some (PPrintRaised body) /\
  length (calls (trace (run repr w).1)) = S i.
Proof.
  intros Hcall Hi Hst Hbody Hp.
  run_init repr w s res Hrun.
  all: destruct i as [|[|[|i]]]; try lia; simplify_eq/=.
  all: status_facts; try done; try congruence.
  all: rewrite Hbody in *; simplify_eq; first [done | congruence].
Qed.

Lemma pprint_failure_ends_run_witness :
  (run repr_unused deep_no_apps_world).2 = raise RecursionError /\
  last (trace (run repr_unused deep_no_apps_world).1)
    = Some (PPrintRaised deep_no_apps_body) /\
  length (calls (trace (run repr_unused deep_no_apps_world).1)) = 2%nat.
Proof.
  apply (pprint_failure_ends_run repr_unused deep_no_apps_world 1
           search_request_abc123 (reply 200 deep_no_apps_body) deep_no_apps_body);
    [reflexivity | lia | unfold error_status; simpl; lia | reflexivity
    | vm_compute; reflexivity].
Defined.
